(** * ReferenceArrayField (ra-ui-materialui/src/field/ReferenceArrayField.tsx)

    A shallow embedding of the two function components of the file:
    [ReferenceArrayField], which checks its children, calls the list
    controller hook and wraps the view in a list-context provider, and
    [ReferenceArrayFieldView], which renders a progress bar until the data is
    loaded and otherwise clones its single child (and the optional
    pagination element) with the remaining props.

    Values are JavaScript values; a React element is its type and its
    props.  A JavaScript object is an association list read from the right:
    a later entry shadows an earlier one, as in an object literal, so the
    spread [{...a, ...b}] is [a ++ b] and the rest pattern
    [{k, ...rest} = o] removes every entry for [k].  Key order is not
    modelled (no claim depends on it). *)

From Stdlib Require Import String List Bool ZArith Lia.
Import ListNotations.
Open Scope string_scope.
Set Warnings "-register-all".

(** ** JavaScript values and objects *)

(** [VElem ty props] is an element whose type is the component (or host
    tag) named [ty]; [VElemOf t props] is an element whose type is the
    arbitrary value [t], as [cloneElement] builds from a value that was not
    an element ([t] is then that value's [type] property, [undefined] for a
    primitive or an array). *)
Inductive val : Type :=
  | VUndef
  | VNull
  | VBool (b : bool)
  | VNum (z : Z)
  | VStr (s : string)
  | VArr (l : list val)
  | VObj (o : list (string * val))
  | VElem (ty : string) (props : list (string * val))
  | VElemOf (t : val) (props : list (string * val)).

Definition obj := list (string * val).

(** [o[k]] as an own property: the last entry for [k]. *)
Fixpoint get (o : obj) (k : string) : option val :=
  match o with
  | [] => None
  | (k', v) :: o' =>
      match get o' k with
      | Some w => Some w
      | None => if String.eqb k k' then Some v else None
      end
  end.

(** [o.k] read as an expression: [undefined] when the key is missing. *)
Definition get_u (o : obj) (k : string) : val :=
  match get o k with Some v => v | None => VUndef end.

(** The rest of an object pattern after the keys [ks] were taken out. *)
Definition del_keys (ks : list string) (o : obj) : obj :=
  filter (fun kv => negb (existsb (String.eqb (fst kv)) ks)) o.

(** JavaScript truthiness ([NaN] is not modelled). *)
Definition truthy (v : val) : bool :=
  match v with
  | VUndef | VNull => false
  | VBool b => b
  | VNum z => negb (Z.eqb z 0)
  | VStr s => negb (String.eqb s "")
  | _ => true
  end.

Definition is_undefined (v : val) : bool :=
  match v with VUndef => true | _ => false end.

(** ** React primitives *)

Inductive result : Type :=
  | Ok (v : val)
  | Err (msg : string).

(** [React.createElement(Fragment, null, c1, ..., cn)]. *)
Definition fragment (cs : list val) : val :=
  VElem "Fragment" [("children", VArr cs)].

(** [React.Children.count]: [null] and [undefined] at the top give 0;
    arrays are flattened; every other leaf (including [null], booleans,
    strings, numbers and elements inside an array) counts 1; a plain object
    makes React throw. *)
Fixpoint count_leaves (v : val) : option nat :=
  match v with
  | VArr l =>
      (fix go (l : list val) : option nat :=
         match l with
         | [] => Some 0
         | x :: l' =>
             match count_leaves x, go l' with
             | Some n, Some m => Some (n + m)
             | _, _ => None
             end
         end) l
  | VObj _ => None
  | _ => Some 1
  end.

Definition Children_count (v : val) : option nat :=
  match v with
  | VUndef | VNull => Some 0
  | _ => count_leaves v
  end.

(** [React.isValidElement]. *)
Definition isValidElement (v : val) : bool :=
  match v with VElem _ _ | VElemOf _ _ => true | _ => false end.

(** [React.Children.only]: the argument itself when it is one element. *)
Definition Children_only (v : val) : result :=
  if isValidElement v then Ok v
  else Err "React.Children.only expected to receive a single React element child.".

(** The props [cloneElement] never copies from its config: they set the
    element's key and ref (not modelled) or are dev-only. *)
Definition reserved_props : list string := ["key"; "ref"; "__self"; "__source"].

(** [config[k] === undefined && defaultProps !== undefined
       ? defaultProps[k] : config[k]] *)
Definition resolve_default_val (defaults : option obj) (k : string) (v : val) : val :=
  match v, defaults with
  | VUndef, Some d => get_u d k
  | _, _ => v
  end.

(** The props of a clone: the element's props, then every own, non-reserved
    property of [config], an [undefined] one replaced by the type's
    [defaultProps] value when the type has [defaultProps]. *)
Definition clone_props (defaults : option obj) (p config : obj) : obj :=
  (p ++ map (fun kv => (fst kv, resolve_default_val defaults (fst kv) (snd kv)))
            (del_keys reserved_props config))%list.

(** [element.type.defaultProps] for a type given as a value: only an
    object type (such as a [memo] or [forwardRef] object) can carry it; a
    [defaultProps] that is not a plain object is read as absent. *)
Definition type_defaultProps (t : val) : option obj :=
  match t with
  | VObj o => match get_u o "defaultProps" with VObj d => Some d | _ => None end
  | _ => None
  end.

(** [element.props] of a plain object passed as an element, copied by
    [Object.assign({}, element.props)]; a [props] that is not a plain object
    is read as [{}]. *)
Definition obj_props (o : obj) : obj :=
  match get_u o "props" with VObj p => p | _ => [] end.

(** [React.cloneElement(element, config)]: throws only on [null] and
    [undefined]; otherwise builds an element of [element.type] with
    [element.props] updated by [config].  [defaultProps] gives the
    [defaultProps] of each named element type. *)
Definition cloneElement (defaultProps : string -> option obj) (el : val)
  (config : obj) : result :=
  match el with
  | VUndef | VNull =>
      Err "React.cloneElement(...): The argument must be a React element"
  | VElem ty p => Ok (VElem ty (clone_props (defaultProps ty) p config))
  | VElemOf t p => Ok (VElemOf t (clone_props (type_defaultProps t) p config))
  | VObj o =>
      let t := get_u o "type" in
      Ok (VElemOf t (clone_props (type_defaultProps t) (obj_props o) config))
  | _ => Ok (VElemOf VUndef (clone_props None [] config))
  end.

(** ** sanitizeRestProps *)

(** Modelled from the spec: [sanitizeRestProps] (imported from
    [./sanitizeRestProps], not part of the sources).  The spec only says the
    remaining props are "sanitized" and that the fetched data reaches the
    child: it is modelled as removing a set [dropped] of keys, the set being
    a parameter of the development. *)
Definition sanitizeRestProps (dropped : list string) (props : obj) : obj :=
  del_keys dropped props.

(** ** Styles (makeStyles / useStyles) *)

(** Decimal digits of [n], in front of [acc]; [fuel] bounds the number of
    digits. *)
Fixpoint N_digits (fuel : nat) (n : N) (acc : string) : string :=
  match fuel with
  | O => acc
  | S f =>
      let acc' := String (Ascii.ascii_of_N (48 + N.modulo n 10)) acc in
      if N.ltb n 10 then acc' else N_digits f (N.div n 10) acc'
  end.

(** [String(z)] for an integer. *)
Definition Z_to_string (z : Z) : string :=
  match z with
  | Z0 => "0"
  | Zpos p => N_digits (Pos.size_nat p) (Npos p) ""
  | Zneg p => "-" ++ N_digits (Pos.size_nat p) (Npos p) ""
  end.

(** [String(v)], as a template literal converts a value: an array is
    joined with commas ([null] and [undefined] entries giving the empty
    string), and an object without a [toString] of its own gives
    ["[object Object]"]. *)
Fixpoint js_String (v : val) : string :=
  match v with
  | VUndef => "undefined"
  | VNull => "null"
  | VBool b => if b then "true" else "false"
  | VNum z => Z_to_string z
  | VStr s => s
  | VArr l =>
      (fix join (l : list val) : string :=
         match l with
         | [] => ""
         | x :: l' =>
             let sx := match x with VUndef | VNull => "" | _ => js_String x end in
             match l' with [] => sx | _ => sx ++ "," ++ join l' end
         end) l
  | VObj _ | VElem _ _ | VElemOf _ _ => "[object Object]"
  end.

(** [useStyles(props)]: the class generated for the rule [progress] by the
    style sheet of the current theme context ([sheet_progress]), merged with
    an override from [props.classes] as MUI's [mergeClasses] does: for each
    own key of a truthy [newClasses] whose value is truthy,
    [`${baseClasses[key]} ${newClasses[key]}`].  Only a plain object can
    have an own [progress] key. *)
Definition useStyles_progress (sheet_progress : string) (props : obj) : string :=
  match get_u props "classes" with
  | VObj cls =>
      let o := get_u cls "progress" in
      if truthy o then sheet_progress ++ " " ++ js_String o else sheet_progress
  | _ => sheet_progress
  end.

(** ** ReferenceArrayFieldView *)

Section View.

Variable dropped : list string.
Variable defaultProps : string -> option obj.

(** [<LinearProgress className={classes.progress} />] (MUI's
    [LinearProgress] declares no [defaultProps]). *)
Definition LinearProgress (cls : string) : val :=
  VElem "LinearProgress" [("className", VStr cls)].

(** [const { children, pagination, className, reference, ...rest } = props] *)
Definition view_rest (props : obj) : obj :=
  del_keys ["children"; "pagination"; "className"; "reference"] props.

(** The props given to [cloneElement] for the child. *)
Definition child_config (props : obj) : obj :=
  (sanitizeRestProps dropped (view_rest props)
    ++ [("className", get_u props "className");
        ("resource", get_u props "reference")])%list.

(** [pagination && props.total !== undefined && cloneElement(...)] *)
Definition pagination_slot (props : obj) : result :=
  let pagination := get_u props "pagination" in
  if negb (truthy pagination) then Ok pagination
  else if is_undefined (get_u props "total") then Ok (VBool false)
  else cloneElement defaultProps pagination
         (sanitizeRestProps dropped (view_rest props)).

Definition ReferenceArrayFieldView (sheet_progress : string) (props : obj)
  : result :=
  let classes_progress := useStyles_progress sheet_progress props in
  if negb (truthy (get_u props "loaded")) then
    Ok (LinearProgress classes_progress)
  else
    match Children_only (get_u props "children") with
    | Err m => Err m
    | Ok child =>
        match cloneElement defaultProps child (child_config props) with
        | Err m => Err m
        | Ok c1 =>
            match pagination_slot props with
            | Err m => Err m
            | Ok c3 => Ok (fragment [c1; VStr " "; c3])
            end
        end
    end.

End View.

(** ** ReferenceArrayField *)

(** A render either returns, throws, or calls the controller hook and
    continues with the hook's result. *)
Inductive comp : Type :=
  | Ret (v : val)
  | Throw (msg : string)
  | CallHook (args : obj) (k : obj -> comp).

(** Runs a render against a hook implementation [hook], logging the
    arguments of every hook call. *)
Fixpoint run (hook : obj -> obj) (c : comp) : list obj * result :=
  match c with
  | Ret v => ([], Ok v)
  | Throw m => ([], Err m)
  | CallHook a k =>
      let '(calls, r) := run hook (k (hook a)) in (a :: calls, r)
  end.

Definition usage_error : string :=
  "<ReferenceArrayField> only accepts a single child (like <Datagrid>)".

Definition objects_not_valid : string :=
  "Objects are not valid as a React child".

(** [page = 1] in the destructuring: the default replaces [undefined]. *)
Definition page_of (props : obj) : val :=
  match get_u props "page" with VUndef => VNum 1 | v => v end.

(** The object passed to [useReferenceArrayFieldController]. *)
Definition controller_args (props : obj) : obj :=
  [("basePath", get_u props "basePath");
   ("filter", get_u props "filter");
   ("page", page_of props);
   ("perPage", get_u props "perPage");
   ("record", get_u props "record");
   ("reference", get_u props "reference");
   ("resource", get_u props "resource");
   ("sort", get_u props "sort");
   ("source", get_u props "source")].

(** [<ListContextProvider value={controllerProps}>
       <PureReferenceArrayFieldView {...props} {...controllerProps} />
     </ListContextProvider>] *)
Definition provider_tree (props controllerProps : obj) : val :=
  VElem "ListContextProvider"
    [("value", VObj controllerProps);
     ("children", VElem "PureReferenceArrayFieldView" (props ++ controllerProps)%list)].

Definition ReferenceArrayField (props : obj) : comp :=
  match Children_count (get_u props "children") with
  | None => Throw objects_not_valid
  | Some 1 =>
      CallHook (controller_args props)
        (fun controllerProps => Ret (provider_tree props controllerProps))
  | Some _ => Throw usage_error
  end.

(** ** Predicates used in the statements *)

Definition is_element (v : val) : bool :=
  match v with VElem _ _ => true | _ => false end.

(** The declared type of the [pagination] prop, [pagination?: ReactElement]
    (with [null] accepted as "absent" too). *)
Definition pagination_typed (v : val) : bool :=
  match v with VUndef | VNull | VElem _ _ => true | _ => false end.

(** The third slot of the loaded fragment, read off the code:
    the cloned pagination, [false] when [total] is undefined, or the falsy
    [pagination] value itself. *)
Definition pagination_out (dropped : list string)
  (defaultProps : string -> option obj) (props : obj) : val :=
  match get_u props "pagination" with
  | VElem ty p =>
      if is_undefined (get_u props "total") then VBool false
      else VElem ty (clone_props (defaultProps ty) p
                       (sanitizeRestProps dropped (view_rest props)))
  | v => v
  end.

(** A plain object somewhere among the children, at any depth of arrays. *)
Fixpoint contains_object (v : val) : bool :=
  match v with
  | VObj _ => true
  | VArr l =>
      (fix go (l : list val) : bool :=
         match l with
         | [] => false
         | x :: l' => contains_object x || go l'
         end) l
  | _ => false
  end.

(** ** Rendering the field one level down *)

(** A child entry React counts as one child: anything but an array (which
    is flattened) or a plain object (which makes React throw). *)
Definition is_leaf (v : val) : bool :=
  match v with VArr _ | VObj _ => false | _ => true end.

(** The element returned by [ReferenceArrayField], rendered one level down
    as React does on a first render: the provider's child
    [PureReferenceArrayFieldView] is [memo(ReferenceArrayFieldView)], which
    renders the view with that element's props. *)
Definition render_field (dropped : list string)
  (defaultProps : string -> option obj) (sheet : string)
  (hook : obj -> obj) (props : obj) : list obj * result :=
  match run hook (ReferenceArrayField props) with
  | (calls, Ok (VElem pty [(vk, value); (ck, VElem vty vprops)])) =>
      if String.eqb vty "PureReferenceArrayFieldView" then
        (calls, match ReferenceArrayFieldView dropped defaultProps sheet vprops with
                | Ok out => Ok (VElem pty [(vk, value); (ck, out)])
                | Err m => Err m
                end)
      else (calls, Ok (VElem pty [(vk, value); (ck, VElem vty vprops)]))
  | other => other
  end.

(** The props [ReferenceArrayField] forwards to the controller. *)
Definition controller_keys : list string :=
  ["basePath"; "filter"; "page"; "perPage"; "record"; "reference";
   "resource"; "sort"; "source"].

(** ** Sample inputs *)

Definition ex_child : val := VElem "SingleFieldList" [("linkType", VBool false)].

Definition ex_pagination : val := VElem "Pagination" [].

(** [defaultProps] of the sample element types. *)
Definition ex_defaultProps (ty : string) : option obj :=
  if String.eqb ty "SingleFieldList"
  then Some [("className", VStr "list"); ("linkType", VStr "edit")]
  else None.

(** The props the memoised view receives once loaded: the field's own props
    followed by the controller's result. *)
Definition ex_view_props : obj :=
  [("children", ex_child); ("reference", VStr "categories");
   ("resource", VStr "products"); ("source", VStr "category_ids");
   ("pagination", ex_pagination); ("className", VStr "cats");
   ("loaded", VBool true); ("ids", VArr [VNum 11; VNum 22]);
   ("data", VObj [("11", VObj [("name", VStr "a")]);
                  ("22", VObj [("name", VStr "b")])]);
   ("total", VNum 2)].

Definition ex_field_props : obj :=
  [("children", ex_child); ("reference", VStr "categories");
   ("resource", VStr "products"); ("source", VStr "category_ids");
   ("record", VObj [("id", VNum 456); ("category_ids", VArr [VNum 11; VNum 22])])].

Definition ex_hook (_ : obj) : obj :=
  [("loaded", VBool false); ("ids", VArr []); ("data", VObj [])].

Definition ex_hook_loaded (_ : obj) : obj :=
  [("loaded", VBool true); ("ids", VArr [VNum 11; VNum 22]);
   ("data", VObj [("11", VObj [("name", VStr "a")]);
                  ("22", VObj [("name", VStr "b")])]);
   ("total", VNum 2); ("resource", VStr "categories")].

(** The keys dropped by the field sanitizer in the samples. *)
Definition ex_dropped : list string :=
  ["addLabel"; "basePath"; "label"; "record"; "resource"; "source"].

(** ** Lemmas on objects *)

Lemma get_app (a b : obj) (k : string) :
  get (a ++ b)%list k = match get b k with Some v => Some v | None => get a k end.
Proof.
  induction a as [|[k' v] a IH]; simpl.
  - destruct (get b k); reflexivity.
  - rewrite IH. destruct (get b k); [reflexivity|].
    destruct (get a k); reflexivity.
Qed.

Lemma get_del_keys (ks : list string) (o : obj) (k : string) :
  get (del_keys ks o) k = if existsb (String.eqb k) ks then None else get o k.
Proof.
  unfold del_keys.
  induction o as [|[k' v] o IH]; simpl.
  - destruct (existsb (String.eqb k) ks); reflexivity.
  - destruct (existsb (String.eqb k') ks) eqn:Hk'; simpl.
    + rewrite IH.
      destruct (String.eqb_spec k k').
      * subst k'. rewrite Hk'. reflexivity.
      * destruct (existsb (String.eqb k) ks); [reflexivity|].
        destruct (get o k); reflexivity.
    + rewrite IH.
      destruct (String.eqb_spec k k').
      * subst k'. rewrite Hk'. destruct (get o k); reflexivity.
      * destruct (existsb (String.eqb k) ks); [reflexivity|].
        destruct (get o k); reflexivity.
Qed.

Lemma get_u_app_other (a : obj) (k k' : string) (v : val) :
  String.eqb k k' = false -> get_u (a ++ [(k', v)])%list k = get_u a k.
Proof.
  intros Hne. unfold get_u. rewrite get_app. simpl. rewrite Hne. reflexivity.
Qed.

(** ** ReferenceArrayField: the child-count guard and the hook call *)

Lemma run_ReferenceArrayField_one (hook : obj -> obj) (props : obj) :
  Children_count (get_u props "children") = Some 1 ->
  run hook (ReferenceArrayField props)
  = ([controller_args props],
     Ok (provider_tree props (hook (controller_args props)))).
Proof.
  intros H. unfold ReferenceArrayField. rewrite H. reflexivity.
Qed.

Lemma run_ReferenceArrayField_other (hook : obj -> obj) (props : obj) (n : nat) :
  Children_count (get_u props "children") = Some n -> n <> 1 ->
  run hook (ReferenceArrayField props) = ([], Err usage_error).
Proof.
  intros H Hn. unfold ReferenceArrayField. rewrite H.
  destruct n as [|[|n]]; [reflexivity | congruence | reflexivity].
Qed.

(** C1: [ReferenceArrayField] throws the usage error exactly when React
    counts a number of children other than one; with one child it raises no
    error of its own. *)
Theorem ReferenceArrayField_throws_iff_not_single_child
  (hook : obj -> obj) (props : obj) (n : nat)
  (Hcount : Children_count (get_u props "children") = Some n) :
  (n <> 1 -> snd (run hook (ReferenceArrayField props)) = Err usage_error) /\
  (n = 1 -> exists out, snd (run hook (ReferenceArrayField props)) = Ok out).
Proof.
  split.
  - intros Hn. rewrite (run_ReferenceArrayField_other hook props n Hcount Hn).
    reflexivity.
  - intros ->. rewrite (run_ReferenceArrayField_one hook props Hcount).
    eexists. reflexivity.
Qed.

(** C5: with a single child, the controller hook is called exactly once,
    with exactly the nine fields [basePath], [filter], [page], [perPage],
    [record], [reference], [resource], [sort] and [source] of the props,
    [page] being 1 when it is omitted. *)
Theorem ReferenceArrayField_controller_args (hook : obj -> obj) (props : obj)
  (Hone : Children_count (get_u props "children") = Some 1) :
  fst (run hook (ReferenceArrayField props)) = [controller_args props] /\
  map fst (controller_args props)
    = ["basePath"; "filter"; "page"; "perPage"; "record"; "reference";
       "resource"; "sort"; "source"] /\
  (forall k, In k ["basePath"; "filter"; "perPage"; "record"; "reference";
                   "resource"; "sort"; "source"] ->
             get (controller_args props) k = Some (get_u props k)) /\
  (get props "page" = None -> get (controller_args props) "page" = Some (VNum 1)) /\
  (forall v, get props "page" = Some v -> v <> VUndef ->
             get (controller_args props) "page" = Some v).
Proof.
  rewrite (run_ReferenceArrayField_one hook props Hone).
  split; [reflexivity|]. split; [reflexivity|]. split; [|split].
  - intros k Hk.
    repeat (destruct Hk as [<-|Hk]; [reflexivity|]). destruct Hk.
  - intros Hp.
    change (get (controller_args props) "page") with (Some (page_of props)).
    unfold page_of, get_u. rewrite Hp. reflexivity.
  - intros v Hp Hv.
    change (get (controller_args props) "page") with (Some (page_of props)).
    unfold page_of, get_u. rewrite Hp.
    destruct v; congruence.
Qed.

(** C6: with a single child, the output is the memoised view inside a
    [ListContextProvider] whose value is the controller's result, whatever
    that result is (loading or loaded). *)
Theorem ReferenceArrayField_wraps_in_list_context (hook : obj -> obj) (props : obj)
  (Hone : Children_count (get_u props "children") = Some 1) :
  snd (run hook (ReferenceArrayField props))
  = Ok (VElem "ListContextProvider"
          [("value", VObj (hook (controller_args props)));
           ("children", VElem "PureReferenceArrayFieldView"
                          (props ++ hook (controller_args props))%list)]).
Proof.
  rewrite (run_ReferenceArrayField_one hook props Hone). reflexivity.
Qed.

(** C8: when the child count is not one, the error is thrown before the
    controller hook is called: the hook is never invoked. *)
Theorem ReferenceArrayField_guard_before_hook (hook : obj -> obj) (props : obj)
  (n : nat) (Hcount : Children_count (get_u props "children") = Some n)
  (Hn : n <> 1) :
  fst (run hook (ReferenceArrayField props)) = [] /\
  snd (run hook (ReferenceArrayField props)) = Err usage_error.
Proof.
  rewrite (run_ReferenceArrayField_other hook props n Hcount Hn).
  split; reflexivity.
Qed.


(** ** Lemmas on cloneElement and the view *)

Lemma get_map_resolve (d : option obj) (o : obj) (k : string) :
  get (map (fun kv => (fst kv, resolve_default_val d (fst kv) (snd kv))) o) k
  = option_map (resolve_default_val d k) (get o k).
Proof.
  induction o as [|[k' v] o IH]; simpl; [reflexivity|].
  rewrite IH. destruct (get o k); simpl; [reflexivity|].
  destruct (String.eqb_spec k k'); [subst k'; reflexivity | reflexivity].
Qed.

Lemma get_clone_props (d : option obj) (p config : obj) (k : string) :
  get (clone_props d p config) k
  = if existsb (String.eqb k) reserved_props then get p k
    else match get config k with
         | Some v => Some (resolve_default_val d k v)
         | None => get p k
         end.
Proof.
  unfold clone_props. rewrite get_app, get_map_resolve, get_del_keys.
  destruct (existsb (String.eqb k) reserved_props); simpl; [reflexivity|].
  destruct (get config k); reflexivity.
Qed.

Lemma resolve_default_val_defined (d : option obj) (k : string) (v : val) :
  v <> VUndef -> resolve_default_val d k v = v.
Proof. intros H. destruct v; try reflexivity. contradiction. Qed.

Lemma not_in_existsb (k : string) (ks : list string) :
  ~ In k ks -> existsb (String.eqb k) ks = false.
Proof.
  intros Hnd. apply Bool.not_true_is_false. intros Hin.
  apply existsb_exists in Hin. destruct Hin as [x [Hx Heq]].
  apply String.eqb_eq in Heq. subst x. contradiction.
Qed.

(** [cloneElement] only fails on [null] and [undefined]. *)
Lemma cloneElement_truthy (defaultProps : string -> option obj) (el : val)
  (config : obj) :
  truthy el = true -> exists v, cloneElement defaultProps el config = Ok v.
Proof. intros H. destruct el; try discriminate; eexists; reflexivity. Qed.

Lemma pagination_slot_ok (dropped : list string)
  (defaultProps : string -> option obj) (props : obj) :
  exists c3, pagination_slot dropped defaultProps props = Ok c3.
Proof.
  unfold pagination_slot.
  destruct (truthy (get_u props "pagination")) eqn:Ht; simpl; [|eexists; reflexivity].
  destruct (is_undefined (get_u props "total")); [eexists; reflexivity|].
  apply cloneElement_truthy. exact Ht.
Qed.

(** Once loaded, a view whose child is an element returns the fragment of
    the cloned child, [" "] and the pagination slot. *)
Lemma view_loaded_valid (dropped : list string)
  (defaultProps : string -> option obj) (sheet : string) (props : obj)
  (Hl : truthy (get_u props "loaded") = true)
  (Hc : isValidElement (get_u props "children") = true) :
  exists c1 c3,
    cloneElement defaultProps (get_u props "children") (child_config dropped props)
      = Ok c1 /\
    pagination_slot dropped defaultProps props = Ok c3 /\
    ReferenceArrayFieldView dropped defaultProps sheet props
      = Ok (fragment [c1; VStr " "; c3]).
Proof.
  destruct (cloneElement_truthy defaultProps (get_u props "children")
              (child_config dropped props)) as [c1 H1].
  { destruct (get_u props "children"); try discriminate; reflexivity. }
  destruct (pagination_slot_ok dropped defaultProps props) as [c3 H3].
  exists c1, c3. split; [exact H1|]. split; [exact H3|].
  unfold ReferenceArrayFieldView. rewrite Hl. simpl.
  unfold Children_only. rewrite Hc, H1, H3. reflexivity.
Qed.

Lemma view_loaded (dropped : list string) (defaultProps : string -> option obj)
  (sheet : string) (props : obj) (ty : string) (cp : obj)
  (Hl : truthy (get_u props "loaded") = true)
  (Hc : get_u props "children" = VElem ty cp)
  (Hp : pagination_typed (get_u props "pagination") = true) :
  ReferenceArrayFieldView dropped defaultProps sheet props
  = Ok (fragment [VElem ty (clone_props (defaultProps ty) cp (child_config dropped props));
                  VStr " "; pagination_out dropped defaultProps props]).
Proof.
  unfold ReferenceArrayFieldView. rewrite Hl, Hc. simpl.
  unfold pagination_slot, pagination_out.
  destruct (get_u props "pagination"); try discriminate; simpl; try reflexivity.
  destruct (is_undefined (get_u props "total")); reflexivity.
Qed.

Lemma get_child_config (dropped : list string) (props : obj) (k : string) :
  get (child_config dropped props) k
  = if String.eqb k "resource" then Some (get_u props "reference")
    else if String.eqb k "className" then Some (get_u props "className")
    else if existsb (String.eqb k) ["children"; "pagination"; "reference"]
            || existsb (String.eqb k) dropped
    then None else get props k.
Proof.
  unfold child_config, sanitizeRestProps, view_rest.
  rewrite get_app. simpl.
  destruct (String.eqb_spec k "resource"); [reflexivity|].
  destruct (String.eqb_spec k "className"); [reflexivity|].
  apply String.eqb_neq in n0. rewrite !get_del_keys. simpl. rewrite n0.
  destruct (String.eqb k "children"), (String.eqb k "pagination"),
           (String.eqb k "reference"); simpl;
    destruct (existsb (String.eqb k) dropped); reflexivity.
Qed.

(** C2: while [loaded] is [false] the view returns only the progress bar;
    the child is not part of the output, which does not depend on it. *)
Theorem view_loading_shows_only_progress (dropped : list string)
  (defaultProps : string -> option obj) (sheet : string)
  (props : obj) (Hl : get_u props "loaded" = VBool false) :
  ReferenceArrayFieldView dropped defaultProps sheet props
    = Ok (LinearProgress (useStyles_progress sheet props)) /\
  (forall c, ReferenceArrayFieldView dropped defaultProps sheet
               (props ++ [("children", c)])%list
             = ReferenceArrayFieldView dropped defaultProps sheet props).
Proof.
  assert (Hv : forall q, get_u q "loaded" = VBool false ->
            ReferenceArrayFieldView dropped defaultProps sheet q
            = Ok (LinearProgress (useStyles_progress sheet q))).
  { intros q Hq. unfold ReferenceArrayFieldView. rewrite Hq. reflexivity. }
  split; [exact (Hv props Hl)|].
  intros c.
  rewrite (Hv props Hl), Hv.
  - unfold useStyles_progress. rewrite get_u_app_other by reflexivity.
    reflexivity.
  - rewrite get_u_app_other by reflexivity. exact Hl.
Qed.

(** C3: once loaded, the view clones its single child element with the
    config made of exactly the sanitized rest props, [className], and
    [resource] set to [reference]; the controller's [data] and [ids] are in
    that config unless the sanitizer drops them. *)
Theorem view_loaded_clones_child (dropped : list string)
  (defaultProps : string -> option obj) (sheet : string) (props : obj)
  (Hl : get_u props "loaded" = VBool true)
  (Hc : isValidElement (get_u props "children") = true) :
  (exists c1 c3,
     ReferenceArrayFieldView dropped defaultProps sheet props
       = Ok (fragment [c1; VStr " "; c3]) /\
     cloneElement defaultProps (get_u props "children") (child_config dropped props)
       = Ok c1) /\
  child_config dropped props
    = (sanitizeRestProps dropped
         (del_keys ["children"; "pagination"; "className"; "reference"] props)
       ++ [("className", get_u props "className");
           ("resource", get_u props "reference")])%list /\
  (forall k, get (child_config dropped props) k
     = if String.eqb k "resource" then Some (get_u props "reference")
       else if String.eqb k "className" then Some (get_u props "className")
       else if existsb (String.eqb k) ["children"; "pagination"; "reference"]
               || existsb (String.eqb k) dropped
       then None else get props k) /\
  (forall k, In k ["data"; "ids"] -> ~ In k dropped ->
     get (child_config dropped props) k = get props k).
Proof.
  assert (Hl' : truthy (get_u props "loaded") = true) by (rewrite Hl; reflexivity).
  split; [|split; [reflexivity|split]].
  - destruct (view_loaded_valid dropped defaultProps sheet props Hl' Hc)
      as [c1 [c3 [H1 [_ Hv]]]].
    exists c1, c3. split; assumption.
  - apply get_child_config.
  - intros k Hk Hnd. rewrite get_child_config, (not_in_existsb k dropped Hnd).
    destruct Hk as [<-|[<-|[]]]; reflexivity.
Qed.

(** C4: once loaded, the pagination element is rendered exactly when one
    was given and [total] is not [undefined]; otherwise the slot holds a
    falsy value, which React renders as nothing. *)
Theorem view_pagination_iff_total (dropped : list string)
  (defaultProps : string -> option obj) (sheet : string)
  (props : obj) (ty : string) (cp : obj)
  (Hl : get_u props "loaded" = VBool true)
  (Hc : get_u props "children" = VElem ty cp)
  (Hp : pagination_typed (get_u props "pagination") = true) :
  exists c1 c3,
    ReferenceArrayFieldView dropped defaultProps sheet props
      = Ok (fragment [c1; VStr " "; c3]) /\
    (is_element c3 = true <->
       is_element (get_u props "pagination") = true /\
       is_undefined (get_u props "total") = false) /\
    (is_element c3 = false -> truthy c3 = false).
Proof.
  assert (Hl' : truthy (get_u props "loaded") = true) by (rewrite Hl; reflexivity).
  do 2 eexists.
  split; [exact (view_loaded dropped defaultProps sheet props ty cp Hl' Hc Hp)|].
  unfold pagination_out.
  destruct (get_u props "pagination"); try discriminate; simpl.
  - split; [intuition discriminate | reflexivity].
  - split; [intuition discriminate | reflexivity].
  - destruct (is_undefined (get_u props "total")); simpl.
    + split; [intuition discriminate | reflexivity].
    + split; [tauto | discriminate].
Qed.

(** C7 (as stated, refuted): the loaded output is not only the cloned
    child and the optional pagination: the fragment also holds the text
    node [" "] written as [{' '}] between them. *)
Lemma view_loaded_output_has_space_text :
  ~ (exists c1 others,
       ReferenceArrayFieldView ex_dropped ex_defaultProps "p" ex_view_props
         = Ok (fragment (c1 :: others)) /\
       Forall (fun v => isValidElement v = true) others).
Proof.
  intros [c1 [others [H F]]].
  vm_compute in H. injection H as _ <-.
  inversion F as [|x l Hx _]. discriminate Hx.
Qed.

(** C7 (amended): once loaded, the output is a fragment of exactly three
    nodes: the cloned child, the text [" "], and then the cloned pagination
    element when one was given and [total] is defined, [false] when one was
    given and [total] is [undefined], or the [pagination] value itself
    ([undefined] or [null]) when none was given. *)
Theorem view_loaded_output_shape (dropped : list string)
  (defaultProps : string -> option obj) (sheet : string) (props : obj)
  (Hl : get_u props "loaded" = VBool true)
  (Hc : isValidElement (get_u props "children") = true)
  (Hp : pagination_typed (get_u props "pagination") = true) :
  exists c1 c3,
    ReferenceArrayFieldView dropped defaultProps sheet props
      = Ok (fragment [c1; VStr " "; c3]) /\
    cloneElement defaultProps (get_u props "children") (child_config dropped props)
      = Ok c1 /\
    ((exists pty pp,
        get_u props "pagination" = VElem pty pp /\
        is_undefined (get_u props "total") = false /\
        c3 = VElem pty (clone_props (defaultProps pty) pp
                          (sanitizeRestProps dropped (view_rest props))))
     \/ (is_element (get_u props "pagination") = true /\
         is_undefined (get_u props "total") = true /\ c3 = VBool false)
     \/ ((get_u props "pagination" = VUndef \/ get_u props "pagination" = VNull) /\
         c3 = get_u props "pagination")).
Proof.
  assert (Hl' : truthy (get_u props "loaded") = true) by (rewrite Hl; reflexivity).
  destruct (view_loaded_valid dropped defaultProps sheet props Hl' Hc)
    as [c1 [c3 [H1 [H3 Hv]]]].
  exists c1, c3. split; [exact Hv|]. split; [exact H1|].
  unfold pagination_slot in H3.
  destruct (get_u props "pagination") as [| | | | | | |pty pp|] eqn:Ep;
    try discriminate; simpl in H3.
  - injection H3 as <-. right. right. split; [left|]; reflexivity.
  - injection H3 as <-. right. right. split; [right|]; reflexivity.
  - destruct (is_undefined (get_u props "total")) eqn:Et; injection H3 as <-.
    + right. left. repeat split; assumption.
    + left. exists pty, pp. repeat split; assumption.
Qed.

Lemma append_empty_r (s : string) : (s ++ "")%string = s.
Proof. induction s as [|a s IH]; simpl; [reflexivity | rewrite IH; reflexivity]. Qed.

Lemma append_cancel_r (s1 s2 t : string) :
  (s1 ++ t)%string = (s2 ++ t)%string -> s1 = s2.
Proof.
  assert (Hlen : forall s, String.length (s ++ t) = String.length s + String.length t).
  { induction s as [|a s IH]; simpl; [reflexivity | rewrite IH; reflexivity]. }
  revert s2. induction s1 as [|a s1 IH]; intros [|b s2] H; simpl in H.
  - reflexivity.
  - apply (f_equal String.length) in H. simpl in H. rewrite Hlen in H. lia.
  - apply (f_equal String.length) in H. simpl in H. rewrite Hlen in H. lia.
  - injection H as -> H. rewrite (IH s2 H). reflexivity.
Qed.

Lemma prefix_app (s t : string) : String.prefix s (s ++ t) = true.
Proof.
  induction s as [|a s IH]; simpl.
  - destruct t; reflexivity.
  - destruct (Ascii.ascii_dec a a); [exact IH | contradiction].
Qed.

(** The override part of [useStyles_progress] depends on the props only. *)
Lemma useStyles_progress_suffix (props : obj) :
  exists suf, forall sheet, useStyles_progress sheet props = (sheet ++ suf)%string.
Proof.
  unfold useStyles_progress.
  destruct (get_u props "classes");
    try (exists ""; intros sheet; rewrite append_empty_r; reflexivity).
  destruct (truthy (get_u o "progress")).
  - eexists. intros sheet. reflexivity.
  - exists "". intros sheet. rewrite append_empty_r. reflexivity.
Qed.

(** C10 (as stated, refuted): equal props do not fix the output: while
    loading, the progress bar's class comes from the style sheet of the
    theme context, so two theme contexts give two outputs. *)
Lemma view_output_depends_on_style_sheet :
  ReferenceArrayFieldView ex_dropped ex_defaultProps
    "RaReferenceArrayField-progress-1" [("loaded", VBool false)]
  <> ReferenceArrayFieldView ex_dropped ex_defaultProps
    "RaReferenceArrayField-progress-2" [("loaded", VBool false)].
Proof. vm_compute. discriminate. Qed.

(** C10 (amended): the view is a function of its props and of the class
    the style sheet generates for [progress].  Once loaded, the output does
    not depend on the sheet.  While loading, the output is the progress bar
    whose class starts with the sheet's class, so two sheets give equal
    outputs for the same props exactly when they are the same sheet. *)
Theorem view_deterministic_given_style_sheet (dropped : list string)
  (defaultProps : string -> option obj) (sheet1 sheet2 : string) (props : obj) :
  (truthy (get_u props "loaded") = true ->
   ReferenceArrayFieldView dropped defaultProps sheet1 props
   = ReferenceArrayFieldView dropped defaultProps sheet2 props) /\
  (truthy (get_u props "loaded") = false ->
   ReferenceArrayFieldView dropped defaultProps sheet1 props
     = Ok (LinearProgress (useStyles_progress sheet1 props)) /\
   String.prefix sheet1 (useStyles_progress sheet1 props) = true /\
   (ReferenceArrayFieldView dropped defaultProps sheet1 props
    = ReferenceArrayFieldView dropped defaultProps sheet2 props
    <-> sheet1 = sheet2)).
Proof.
  split.
  - intros Hl. unfold ReferenceArrayFieldView. rewrite Hl. reflexivity.
  - intros Hl. destruct (useStyles_progress_suffix props) as [suf Hsuf].
    unfold ReferenceArrayFieldView. rewrite Hl. simpl.
    split; [reflexivity|]. split; [rewrite Hsuf; apply prefix_app|].
    split; [|intros ->; reflexivity].
    intros H. injection H as H. rewrite !Hsuf in H.
    exact (append_cancel_r _ _ _ H).
Qed.

(** ** Further properties of the file *)

Lemma count_leaves_all_leaves (l : list val) :
  forallb is_leaf l = true -> count_leaves (VArr l) = Some (length l).
Proof.
  induction l as [|x l IH]; simpl; [reflexivity|].
  intros H. apply andb_prop in H. destruct H as [Hx Hl].
  simpl in IH. rewrite (IH Hl).
  destruct x; try discriminate; reflexivity.
Qed.

Lemma count_leaves_contains_object :
  forall v, contains_object v = true -> count_leaves v = None.
Proof.
  fix IH 1. intros v H.
  destruct v as [| | | | |l|o| |]; try discriminate; [|reflexivity].
  simpl in H |- *. revert l H. fix IHl 1. intros l H.
  destruct l as [|x l']; [discriminate|].
  apply orb_true_iff in H. destruct H as [Hx|Hl].
  - rewrite (IH x Hx). reflexivity.
  - rewrite (IHl l' Hl). destruct (count_leaves x); reflexivity.
Qed.

Lemma render_field_one (dropped : list string) (defaultProps : string -> option obj)
  (sheet : string) (hook : obj -> obj) (props : obj) :
  Children_count (get_u props "children") = Some 1 ->
  render_field dropped defaultProps sheet hook props
  = ([controller_args props],
     match ReferenceArrayFieldView dropped defaultProps sheet
             (props ++ hook (controller_args props))%list with
     | Ok out => Ok (VElem "ListContextProvider"
                       [("value", VObj (hook (controller_args props)));
                        ("children", out)])
     | Err m => Err m
     end).
Proof.
  intros H. unfold render_field. rewrite (run_ReferenceArrayField_one hook props H).
  reflexivity.
Qed.

(** React counts every non-array entry of a children array, [null],
    [false] and strings included: an array of such entries passes the guard
    only when it has exactly one entry, so a placeholder next to the one
    element ([{cond && <X/>}<Datagrid/>]) throws the usage error before any
    hook call. *)
Theorem ReferenceArrayField_counts_placeholder_children
  (hook : obj -> obj) (props : obj) (l : list val)
  (Hc : get_u props "children" = VArr l)
  (Hleaf : forallb is_leaf l = true) (Hlen : length l <> 1) :
  run hook (ReferenceArrayField props) = ([], Err usage_error).
Proof.
  apply (run_ReferenceArrayField_other hook props (length l)); [|exact Hlen].
  rewrite Hc. apply count_leaves_all_leaves. exact Hleaf.
Qed.

(** A plain object as the children, or anywhere among them at any depth of
    arrays, makes [React.Children.count] throw: the render fails with
    React's error, not the usage error, and the controller hook is not
    called. *)
Theorem ReferenceArrayField_object_child_fails_in_count
  (hook : obj -> obj) (props : obj)
  (Hc : contains_object (get_u props "children") = true) :
  run hook (ReferenceArrayField props) = ([], Err objects_not_valid).
Proof.
  assert (Hn : Children_count (get_u props "children") = None).
  { destruct (get_u props "children"); try discriminate;
      apply count_leaves_contains_object; exact Hc. }
  unfold ReferenceArrayField. rewrite Hn. reflexivity.
Qed.

(** The guard and the view disagree on an array holding one element: it
    counts as one child, so the hook is called, but once the controller
    reports [loaded] the view's [Children.only] throws, since an array is
    not an element. *)
Theorem array_of_one_child_passes_guard_then_view_throws
  (dropped : list string) (defaultProps : string -> option obj) (sheet : string)
  (hook : obj -> obj) (props : obj) (ty : string) (cp : obj)
  (Hc : get_u props "children" = VArr [VElem ty cp])
  (Hl : get (hook (controller_args props)) "loaded" = Some (VBool true))
  (Hnc : get (hook (controller_args props)) "children" = None) :
  fst (render_field dropped defaultProps sheet hook props) = [controller_args props] /\
  exists m, snd (render_field dropped defaultProps sheet hook props) = Err m.
Proof.
  assert (Hone : Children_count (get_u props "children") = Some 1)
    by (rewrite Hc; reflexivity).
  rewrite (render_field_one dropped defaultProps sheet hook props Hone).
  split; [reflexivity|].
  unfold ReferenceArrayFieldView.
  unfold get_u at 1 2. rewrite !get_app, Hl, Hnc.
  fold (get_u props "children"). rewrite Hc. simpl.
  eexists. reflexivity.
Qed.

(** The controller's input depends on the nine forwarded props only: two
    props bags that agree on them (and both have one child) lead to the
    same hook call, whatever their other props ([pagination], [className],
    [children], ...). *)
Theorem controller_args_depend_only_on_forwarded_props
  (hook : obj -> obj) (props1 props2 : obj)
  (Hagree : forall k, In k controller_keys -> get props1 k = get props2 k)
  (Hone1 : Children_count (get_u props1 "children") = Some 1)
  (Hone2 : Children_count (get_u props2 "children") = Some 1) :
  controller_args props1 = controller_args props2 /\
  fst (run hook (ReferenceArrayField props1))
  = fst (run hook (ReferenceArrayField props2)).
Proof.
  assert (Ha : controller_args props1 = controller_args props2).
  { unfold controller_args, page_of, get_u.
    rewrite !Hagree by (unfold controller_keys; simpl; tauto).
    reflexivity. }
  split; [exact Ha|].
  rewrite (run_ReferenceArrayField_one hook props1 Hone1),
          (run_ReferenceArrayField_one hook props2 Hone2), Ha.
  reflexivity.
Qed.


(** What the cloned child keeps of its own props: its [resource] becomes
    the field's [reference] and its [className] the field's [className]
    (each replaced by the child type's default when the field's value is
    [undefined]); any other prop of the child survives when the view's
    props do not carry that key. *)
Theorem view_child_keeps_own_props (dropped : list string)
  (defaultProps : string -> option obj) (sheet : string)
  (props : obj) (ty : string) (chp : obj)
  (Hl : get_u props "loaded" = VBool true)
  (Hc : get_u props "children" = VElem ty chp) :
  let c1 := clone_props (defaultProps ty) chp (child_config dropped props) in
  (exists c3,
     ReferenceArrayFieldView dropped defaultProps sheet props
       = Ok (fragment [VElem ty c1; VStr " "; c3])) /\
  get c1 "resource"
    = Some (resolve_default_val (defaultProps ty) "resource" (get_u props "reference")) /\
  (get_u props "reference" <> VUndef -> get c1 "resource" = Some (get_u props "reference")) /\
  get c1 "className"
    = Some (resolve_default_val (defaultProps ty) "className" (get_u props "className")) /\
  (forall k, k <> "resource" -> k <> "className" -> get props k = None ->
     get c1 k = get chp k).
Proof.
  intros c1.
  assert (Hl' : truthy (get_u props "loaded") = true) by (rewrite Hl; reflexivity).
  assert (Hv : isValidElement (get_u props "children") = true) by (rewrite Hc; reflexivity).
  assert (Hres : get c1 "resource"
    = Some (resolve_default_val (defaultProps ty) "resource" (get_u props "reference"))).
  { unfold c1. rewrite get_clone_props, get_child_config. reflexivity. }
  split; [|split; [exact Hres|split; [|split]]].
  - destruct (view_loaded_valid dropped defaultProps sheet props Hl' Hv)
      as [c1' [c3 [H1 [_ Hview]]]].
    rewrite Hc in H1. simpl in H1. injection H1 as <-.
    exists c3. exact Hview.
  - intros Hd. rewrite Hres, resolve_default_val_defined by exact Hd. reflexivity.
  - unfold c1. rewrite get_clone_props, get_child_config. reflexivity.
  - intros k Hr Hcn Hk. unfold c1. rewrite get_clone_props, get_child_config.
    apply String.eqb_neq in Hr, Hcn. rewrite Hr, Hcn, Hk.
    destruct (existsb (String.eqb k) reserved_props); [reflexivity|].
    destruct (existsb (String.eqb k) ["children"; "pagination"; "reference"]
              || existsb (String.eqb k) dropped); reflexivity.
Qed.

(** When the pagination is rendered it is cloned with the sanitized rest
    props: the controller's [total] reaches it (unless the sanitizer drops
    [total]), and its own props survive where the view's props do not carry
    the key. *)
Theorem view_pagination_receives_total (dropped : list string)
  (defaultProps : string -> option obj) (sheet : string)
  (props : obj) (pty : string) (pp : obj)
  (Hl : get_u props "loaded" = VBool true)
  (Hc : isValidElement (get_u props "children") = true)
  (Hpag : get_u props "pagination" = VElem pty pp)
  (Ht : is_undefined (get_u props "total") = false) :
  let c3 := clone_props (defaultProps pty) pp
              (sanitizeRestProps dropped (view_rest props)) in
  (exists c1,
     ReferenceArrayFieldView dropped defaultProps sheet props
       = Ok (fragment [c1; VStr " "; VElem pty c3])) /\
  (~ In "total" dropped -> get c3 "total" = Some (get_u props "total")) /\
  (forall k, get props k = None -> get c3 k = get pp k).
Proof.
  intros c3.
  assert (Hl' : truthy (get_u props "loaded") = true) by (rewrite Hl; reflexivity).
  split; [|split].
  - destruct (view_loaded_valid dropped defaultProps sheet props Hl' Hc)
      as [c1 [c3' [_ [H3 Hview]]]].
    unfold pagination_slot in H3. rewrite Hpag, Ht in H3. simpl in H3.
    injection H3 as <-. exists c1. exact Hview.
  - intros Hnd. unfold c3. rewrite get_clone_props. simpl.
    unfold sanitizeRestProps, view_rest. rewrite !get_del_keys.
    rewrite (not_in_existsb "total" dropped Hnd). simpl.
    unfold get_u, is_undefined in *. destruct (get props "total") as [v|]; [|discriminate].
    rewrite resolve_default_val_defined; [reflexivity|].
    intros ->. discriminate.
  - intros k Hk. unfold c3. rewrite get_clone_props.
    unfold sanitizeRestProps, view_rest. rewrite !get_del_keys, Hk.
    destruct (existsb (String.eqb k) reserved_props),
             (existsb (String.eqb k) dropped),
             (existsb (String.eqb k) ["children"; "pagination"; "className"; "reference"]);
      reflexivity.
Qed.



(** Rendered end to end: with one child, while the controller's result
    carries a falsy [loaded], the field renders the provider around the
    progress bar alone, whatever its own [loaded] prop and its child; the
    view's props are the field's props overridden by the controller's. *)
Theorem render_field_loading (dropped : list string)
  (defaultProps : string -> option obj) (sheet : string)
  (hook : obj -> obj) (props : obj) (v : val)
  (Hone : Children_count (get_u props "children") = Some 1)
  (Hl : get (hook (controller_args props)) "loaded" = Some v)
  (Hf : truthy v = false) :
  render_field dropped defaultProps sheet hook props
  = ([controller_args props],
     Ok (VElem "ListContextProvider"
           [("value", VObj (hook (controller_args props)));
            ("children", LinearProgress
                           (useStyles_progress sheet
                              (props ++ hook (controller_args props))%list))])).
Proof.
  rewrite (render_field_one dropped defaultProps sheet hook props Hone).
  unfold ReferenceArrayFieldView. unfold get_u at 1. rewrite get_app, Hl, Hf.
  reflexivity.
Qed.

(** Rendered end to end: with one element child, once the controller's
    result says [loaded: true] (and carries no [children] or [reference] of
    its own), the child is cloned with [resource] set from the field's
    [reference], and the [data] and [ids] it gets are the controller's
    (unless the sanitizer drops them). *)
Theorem render_field_loaded_child_gets_controller_data
  (dropped : list string) (defaultProps : string -> option obj) (sheet : string)
  (hook : obj -> obj) (props : obj) (ty : string) (chp : obj)
  (Hc : get_u props "children" = VElem ty chp)
  (Hl : get (hook (controller_args props)) "loaded" = Some (VBool true))
  (Hnc : get (hook (controller_args props)) "children" = None)
  (Hnr : get (hook (controller_args props)) "reference" = None) :
  let vprops := (props ++ hook (controller_args props))%list in
  let c1 := clone_props (defaultProps ty) chp (child_config dropped vprops) in
  (exists c3,
     render_field dropped defaultProps sheet hook props
     = ([controller_args props],
        Ok (VElem "ListContextProvider"
              [("value", VObj (hook (controller_args props)));
               ("children", fragment [VElem ty c1; VStr " "; c3])]))) /\
  get c1 "resource"
    = Some (resolve_default_val (defaultProps ty) "resource" (get_u props "reference")) /\
  (forall k v, In k ["data"; "ids"] -> ~ In k dropped ->
     get (hook (controller_args props)) k = Some v -> v <> VUndef ->
     get c1 k = Some v).
Proof.
  intros vprops c1.
  set (cp := hook (controller_args props)) in *.
  assert (Hone : Children_count (get_u props "children") = Some 1)
    by (rewrite Hc; reflexivity).
  assert (Hgu : forall k, get cp k = None -> get_u vprops k = get_u props k).
  { intros k Hk. unfold vprops, get_u. rewrite get_app, Hk. reflexivity. }
  assert (Hl' : truthy (get_u vprops "loaded") = true).
  { unfold vprops, get_u. rewrite get_app, Hl. reflexivity. }
  assert (Hc' : get_u vprops "children" = VElem ty chp) by (rewrite Hgu; assumption).
  assert (Hv : isValidElement (get_u vprops "children") = true) by (rewrite Hc'; reflexivity).
  split; [|split].
  - destruct (view_loaded_valid dropped defaultProps sheet vprops Hl' Hv)
      as [c1' [c3 [H1 [_ Hview]]]].
    rewrite Hc' in H1. simpl in H1. injection H1 as <-.
    exists c3. rewrite (render_field_one dropped defaultProps sheet hook props Hone).
    fold cp. fold vprops. rewrite Hview. reflexivity.
  - unfold c1. rewrite get_clone_props, get_child_config. simpl.
    rewrite Hgu by assumption. reflexivity.
  - intros k v Hk Hnd Hsome Hdef. unfold c1.
    rewrite get_clone_props, get_child_config, (not_in_existsb k dropped Hnd).
    unfold vprops. rewrite get_app, Hsome.
    destruct Hk as [<-|[<-|[]]]; simpl;
      rewrite resolve_default_val_defined by exact Hdef; reflexivity.
Qed.

(** ** Witnesses: the theorems applied at the sample inputs *)

Lemma ReferenceArrayField_throws_iff_not_single_child_witness :
  Children_count (get_u ex_field_props "children") = Some 1 /\
  exists out, snd (run ex_hook (ReferenceArrayField ex_field_props)) = Ok out.
Proof.
  split; [reflexivity|].
  apply (ReferenceArrayField_throws_iff_not_single_child ex_hook ex_field_props 1);
    reflexivity.
Defined.

Lemma ReferenceArrayField_controller_args_witness :
  Children_count (get_u ex_field_props "children") = Some 1 /\
  fst (run ex_hook (ReferenceArrayField ex_field_props))
    = [controller_args ex_field_props].
Proof.
  split; [reflexivity|].
  apply (ReferenceArrayField_controller_args ex_hook ex_field_props).
  reflexivity.
Defined.

Lemma ReferenceArrayField_wraps_in_list_context_witness :
  Children_count (get_u ex_field_props "children") = Some 1 /\
  snd (run ex_hook (ReferenceArrayField ex_field_props))
  = Ok (VElem "ListContextProvider"
          [("value", VObj (ex_hook (controller_args ex_field_props)));
           ("children", VElem "PureReferenceArrayFieldView"
                          (ex_field_props ++ ex_hook (controller_args ex_field_props))%list)]).
Proof.
  split; [reflexivity|].
  apply (ReferenceArrayField_wraps_in_list_context ex_hook ex_field_props).
  reflexivity.
Defined.

Lemma ReferenceArrayField_guard_before_hook_witness :
  Children_count (VArr [ex_child; ex_child]) = Some 2 /\
  fst (run ex_hook (ReferenceArrayField
                      (ex_field_props ++ [("children", VArr [ex_child; ex_child])])%list))
    = [].
Proof.
  split; [reflexivity|].
  apply (ReferenceArrayField_guard_before_hook ex_hook
           (ex_field_props ++ [("children", VArr [ex_child; ex_child])])%list 2);
    [reflexivity | discriminate].
Defined.

Lemma view_loading_shows_only_progress_witness :
  get_u [("loaded", VBool false); ("children", ex_child)] "loaded" = VBool false /\
  ReferenceArrayFieldView ex_dropped ex_defaultProps "RaReferenceArrayField-progress-1"
    [("loaded", VBool false); ("children", ex_child)]
  = Ok (LinearProgress (useStyles_progress "RaReferenceArrayField-progress-1"
                          [("loaded", VBool false); ("children", ex_child)])).
Proof.
  split; [reflexivity|].
  apply (view_loading_shows_only_progress ex_dropped ex_defaultProps
           "RaReferenceArrayField-progress-1").
  reflexivity.
Defined.

Lemma view_loaded_clones_child_witness :
  get_u ex_view_props "loaded" = VBool true /\
  isValidElement (get_u ex_view_props "children") = true /\
  get (child_config ex_dropped ex_view_props) "ids" = get ex_view_props "ids".
Proof.
  split; [reflexivity|]. split; [reflexivity|].
  apply (view_loaded_clones_child ex_dropped ex_defaultProps "p" ex_view_props);
    try reflexivity.
  - simpl. tauto.
  - vm_compute. intuition discriminate.
Defined.

Lemma view_pagination_iff_total_witness :
  get_u ex_view_props "loaded" = VBool true /\
  exists c1 c3,
    ReferenceArrayFieldView ex_dropped ex_defaultProps "p" ex_view_props
      = Ok (fragment [c1; VStr " "; c3]) /\
    (is_element c3 = true <->
       is_element (get_u ex_view_props "pagination") = true /\
       is_undefined (get_u ex_view_props "total") = false) /\
    (is_element c3 = false -> truthy c3 = false).
Proof.
  split; [reflexivity|].
  apply (view_pagination_iff_total ex_dropped ex_defaultProps "p" ex_view_props
           "SingleFieldList" [("linkType", VBool false)]); reflexivity.
Defined.

Lemma view_loaded_output_shape_witness :
  get_u ex_view_props "loaded" = VBool true /\
  exists c1 c3,
    ReferenceArrayFieldView ex_dropped ex_defaultProps "p" ex_view_props
      = Ok (fragment [c1; VStr " "; c3]) /\
    c3 = VElem "Pagination" (clone_props None []
                               (sanitizeRestProps ex_dropped (view_rest ex_view_props))).
Proof.
  split; [reflexivity|].
  destruct (view_loaded_output_shape ex_dropped ex_defaultProps "p" ex_view_props
              eq_refl eq_refl eq_refl)
    as [c1 [c3 [Hv [_ Hc3]]]].
  exists c1, c3. split; [exact Hv|].
  destruct Hc3 as [[pty [pp [Hp [_ H3]]]] | [[_ [Ht _]] | [[Hp|Hp] _]]];
    [| vm_compute in Ht; discriminate
     | vm_compute in Hp; discriminate
     | vm_compute in Hp; discriminate].
  vm_compute in Hp. injection Hp as <- <-. exact H3.
Defined.

Lemma view_deterministic_given_style_sheet_witness :
  truthy (get_u ex_view_props "loaded") = true /\
  ReferenceArrayFieldView ex_dropped ex_defaultProps
    "RaReferenceArrayField-progress-1" ex_view_props
  = ReferenceArrayFieldView ex_dropped ex_defaultProps
    "RaReferenceArrayField-progress-2" ex_view_props.
Proof.
  split; [reflexivity|].
  apply (proj1 (view_deterministic_given_style_sheet ex_dropped ex_defaultProps
                  "RaReferenceArrayField-progress-1" "RaReferenceArrayField-progress-2"
                  ex_view_props)).
  reflexivity.
Defined.

(** ** Witnesses of the further properties *)

Lemma ReferenceArrayField_counts_placeholder_children_witness :
  forallb is_leaf [VBool false; ex_child] = true /\
  run ex_hook (ReferenceArrayField
                 (ex_field_props ++ [("children", VArr [VBool false; ex_child])])%list)
  = ([], Err usage_error).
Proof.
  split; [reflexivity|].
  apply (ReferenceArrayField_counts_placeholder_children ex_hook _
           [VBool false; ex_child]); [reflexivity | reflexivity | discriminate].
Defined.

Lemma ReferenceArrayField_object_child_fails_in_count_witness :
  contains_object (VArr [ex_child; VArr [VObj []]]) = true /\
  run ex_hook (ReferenceArrayField
                 (ex_field_props ++ [("children", VArr [ex_child; VArr [VObj []]])])%list)
  = ([], Err objects_not_valid).
Proof.
  split; [reflexivity|].
  apply (ReferenceArrayField_object_child_fails_in_count ex_hook _). reflexivity.
Defined.

Lemma array_of_one_child_passes_guard_then_view_throws_witness :
  get (ex_hook_loaded []) "loaded" = Some (VBool true) /\
  exists m, snd (render_field ex_dropped ex_defaultProps "p" ex_hook_loaded
                   (ex_field_props ++ [("children", VArr [ex_child])])%list) = Err m.
Proof.
  split; [reflexivity|].
  apply (array_of_one_child_passes_guard_then_view_throws ex_dropped ex_defaultProps "p"
           ex_hook_loaded (ex_field_props ++ [("children", VArr [ex_child])])%list
           "SingleFieldList" [("linkType", VBool false)]); reflexivity.
Defined.

Lemma controller_args_depend_only_on_forwarded_props_witness :
  controller_args ex_field_props
  = controller_args (ex_field_props ++ [("className", VStr "x");
                                        ("pagination", ex_pagination)])%list.
Proof.
  apply (controller_args_depend_only_on_forwarded_props ex_hook ex_field_props
           (ex_field_props ++ [("className", VStr "x");
                               ("pagination", ex_pagination)])%list);
    [| reflexivity | reflexivity].
  intros k Hk. simpl in Hk.
  repeat (destruct Hk as [<-|Hk]; [reflexivity|]). destruct Hk.
Defined.


Lemma view_child_keeps_own_props_witness :
  get_u ex_view_props "loaded" = VBool true /\
  get (clone_props (ex_defaultProps "SingleFieldList") [("linkType", VBool false)]
         (child_config ex_dropped (ex_view_props ++ [("className", VUndef)])%list))
      "className" = Some (VStr "list") /\
  get (clone_props (ex_defaultProps "SingleFieldList") [("linkType", VBool false)]
         (child_config ex_dropped (ex_view_props ++ [("className", VUndef)])%list))
      "linkType" = Some (VBool false).
Proof.
  split; [reflexivity|].
  pose proof (view_child_keeps_own_props ex_dropped ex_defaultProps "p"
                (ex_view_props ++ [("className", VUndef)])%list "SingleFieldList"
                [("linkType", VBool false)] eq_refl eq_refl) as H.
  cbv zeta in H. destruct H as [_ [_ [_ [Hcn Hk]]]].
  split.
  - rewrite Hcn. reflexivity.
  - apply Hk; [discriminate | discriminate | reflexivity].
Defined.

Lemma view_pagination_receives_total_witness :
  is_undefined (get_u ex_view_props "total") = false /\
  get (clone_props (ex_defaultProps "Pagination") []
         (sanitizeRestProps ex_dropped (view_rest ex_view_props))) "total"
  = Some (VNum 2).
Proof.
  split; [reflexivity|].
  pose proof (view_pagination_receives_total ex_dropped ex_defaultProps "p"
                ex_view_props "Pagination" [] eq_refl eq_refl eq_refl eq_refl) as H.
  cbv zeta in H. destruct H as [_ [Ht _]].
  rewrite Ht; [reflexivity|]. simpl. intuition discriminate.
Defined.


Lemma render_field_loading_witness :
  get (ex_hook (controller_args ex_field_props)) "loaded" = Some (VBool false) /\
  render_field ex_dropped ex_defaultProps "p" ex_hook ex_field_props
  = ([controller_args ex_field_props],
     Ok (VElem "ListContextProvider"
           [("value", VObj (ex_hook (controller_args ex_field_props)));
            ("children", LinearProgress
                           (useStyles_progress "p"
                              (ex_field_props
                               ++ ex_hook (controller_args ex_field_props))%list))])).
Proof.
  split; [reflexivity|].
  apply (render_field_loading ex_dropped ex_defaultProps "p" ex_hook ex_field_props
           (VBool false)); reflexivity.
Defined.

Lemma render_field_loaded_child_gets_controller_data_witness :
  get (ex_hook_loaded (controller_args ex_field_props)) "loaded" = Some (VBool true) /\
  get (clone_props (ex_defaultProps "SingleFieldList") [("linkType", VBool false)]
         (child_config ex_dropped
            (ex_field_props ++ ex_hook_loaded (controller_args ex_field_props))%list))
      "ids" = Some (VArr [VNum 11; VNum 22]).
Proof.
  split; [reflexivity|].
  pose proof (render_field_loaded_child_gets_controller_data ex_dropped ex_defaultProps
                "p" ex_hook_loaded ex_field_props "SingleFieldList"
                [("linkType", VBool false)] eq_refl eq_refl eq_refl eq_refl) as H.
  cbv zeta in H. destruct H as [_ [_ Hd]].
  apply Hd; [simpl; tauto | simpl; intuition discriminate | reflexivity | discriminate].
Defined.
